(** * Product configuration lifecycle of the Google orchestration service

    Shallow embedding of [src/services/service_mgmt.py] ([ServiceManager]):
    [enable_apis], [disable_apis] and [get_status] over a Cosmos DB container
    of JSON documents.  Python dicts are association lists kept in insertion
    order; exceptions are the [Err] branch of a small error monad; the
    container handle is [option store] ([None] when [_initialize_cosmos]
    failed and [self.container] stayed [None]); the clock reading
    [datetime.utcnow().isoformat()] is passed in as a string. *)

From Stdlib Require Import String Ascii List Bool.
Import ListNotations.
Open Scope string_scope.
Open Scope list_scope.
Set Warnings "-register-all".

(** ** JSON values, as the documents and request bodies carry them *)

Inductive json : Type :=
| JNull
| JBool (b : bool)
| JNum (n : nat)
| JStr (s : string)
| JList (l : list json)
| JObj (fields : list (string * json)).

(** ** Python exceptions raised on the paths we model *)

Inductive err : Type :=
| NotInitialized          (** [raise Exception("Cosmos DB not initialized")] *)
| NotFound                (** [CosmosResourceNotFoundError] from [read_item] *)
| StoreUnavailable        (** any other store failure *)
| BadDocument             (** the store rejects a body without string id / key *)
| KeyError (k : string)
| AttributeError
| TypeError.

Inductive result (A : Type) : Type :=
| Ok (a : A)
| Err (e : err).
Arguments Ok {A} a.
Arguments Err {A} e.

Definition bind {A B} (r : result A) (f : A -> result B) : result B :=
  match r with
  | Ok a => f a
  | Err e => Err e
  end.

Notation "'let*' x ':=' r 'in' k" := (bind r (fun x => k))
  (at level 200, x name, r at level 100, k at level 200).

(** ** Python dict operations on association lists *)

Module Dict.

(** [d.get(k, default)] *)
Fixpoint get (d : list (string * json)) (k : string) (dflt : json) : json :=
  match d with
  | [] => dflt
  | (k', v) :: d' => if String.eqb k k' then v else get d' k dflt
  end.

(** [d[k]] *)
Fixpoint getitem (d : list (string * json)) (k : string) : result json :=
  match d with
  | [] => Err (KeyError k)
  | (k', v) :: d' => if String.eqb k k' then Ok v else getitem d' k
  end.

(** [d[k] = v]: overwrite in place, or append a new key at the end *)
Fixpoint setitem (d : list (string * json)) (k : string) (v : json)
  : list (string * json) :=
  match d with
  | [] => [(k, v)]
  | (k', v') :: d' =>
      if String.eqb k k' then (k', v) :: d' else (k', v') :: setitem d' k v
  end.

End Dict.

(** [x.get(k, default)] on an arbitrary value: only a dict has [.get] *)
Definition py_get (x : json) (k : string) (dflt : json) : result json :=
  match x with
  | JObj d => Ok (Dict.get d k dflt)
  | _ => Err AttributeError
  end.

(** [iter(x)]: a list yields its items, a str its characters, a dict its keys *)
Fixpoint str_chars (s : string) : list json :=
  match s with
  | EmptyString => []
  | String c s' => JStr (String c EmptyString) :: str_chars s'
  end.

Definition py_iter (x : json) : result (list json) :=
  match x with
  | JList l => Ok l
  | JStr s => Ok (str_chars s)
  | JObj d => Ok (map (fun kv => JStr (fst kv)) d)
  | _ => Err TypeError
  end.

(** [x in services] for [services : List[str]]; only a str can be equal to
    a member *)
Definition py_in_strs (x : json) (services : list string) : bool :=
  match x with
  | JStr s => existsb (String.eqb s) services
  | _ => false
  end.

(** [str.lower()] on the ASCII range *)
Definition lower_ascii (c : ascii) : ascii :=
  let n := nat_of_ascii c in
  if Nat.leb 65 n && Nat.leb n 90 then ascii_of_nat (n + 32)%nat else c.

Fixpoint lower (s : string) : string :=
  match s with
  | EmptyString => EmptyString
  | String c s' => String (lower_ascii c) (lower s')
  end.

(** ** The Cosmos DB container [google_configs]

    Documents are stored under their [(id, partition key)] pair; the
    container is partitioned by [productCode].  [healthy = false] stands for
    a store that fails every request. *)

Definition key := (string * string)%type.

Record store : Type := mkStore {
  docs : list (key * json);
  healthy : bool
}.

Definition key_eqb (k1 k2 : key) : bool :=
  String.eqb (fst k1) (fst k2) && String.eqb (snd k1) (snd k2).

Fixpoint lookup (ds : list (key * json)) (k : key) : option json :=
  match ds with
  | [] => None
  | (k', d) :: ds' => if key_eqb k k' then Some d else lookup ds' k
  end.

Definition doc_at (s : store) (k : key) : option json := lookup (docs s) k.

(** [container.read_item(item, partition_key)] *)
Definition read_item (s : store) (id pk : string) : result json :=
  if healthy s then
    match doc_at s (id, pk) with
    | Some d => Ok d
    | None => Err NotFound
    end
  else Err StoreUnavailable.

(** The key a body is stored under: its [id] and its [productCode] *)
Definition doc_key (d : json) : option key :=
  match d with
  | JObj fs =>
      match Dict.get fs "id" JNull, Dict.get fs "productCode" JNull with
      | JStr i, JStr pk => Some (i, pk)
      | _, _ => None
      end
  | _ => None
  end.

(** [container.upsert_item(body)]: replace the document with the same key,
    or create it *)
Definition upsert_item (s : store) (d : json) : result store :=
  if healthy s then
    match doc_key d with
    | Some k =>
        Ok (mkStore ((k, d) :: filter (fun e => negb (key_eqb k (fst e))) (docs s))
                    (healthy s))
    | None => Err BadDocument
    end
  else Err StoreUnavailable.

(** [self.container]: [None] when initialisation failed *)
Definition container := option store.

(** ** [ServiceManager] *)

Module ServiceManager.

(** [f"{product_code.lower()}-google-config"] *)
Definition config_id (product_code : string) : string :=
  (lower product_code ++ "-google-config")%string.

(** The dict [product_config] built by [enable_apis], lines 60-78 *)
Definition build_config (product_code : string) (services : list string)
    (config : list (string * json)) (now : string) : json :=
  let pc0 := [("id", JStr (config_id product_code));
              ("productCode", JStr product_code);
              ("productName", Dict.get config "productName" (JStr product_code));
              ("apis", JObj [("enabled", JList (map JStr services))]);
              ("updatedAt", JStr now)] in
  let add name pc :=
    if existsb (String.eqb name) services
    then Dict.setitem pc name (Dict.get config name (JObj []))
    else pc in
  JObj (add "ads" (add "adsense" (add "tags" (add "analytics" pc0)))).

(** [enable_apis(product_code, services, config)] *)
Definition enable_apis (c : container) (product_code : string)
    (services : list string) (config : list (string * json)) (now : string)
    : result json * container :=
  match c with
  | None => (Err NotInitialized, c)
  | Some s =>
      let product_config := build_config product_code services config now in
      match upsert_item s product_config with
      | Err e => (Err e, c)
      | Ok s' =>
          (Ok (JObj [("success", JBool true);
                     ("productCode", JStr product_code);
                     ("enabledServices", JList (map JStr services));
                     ("configId", JStr (config_id product_code))]),
           Some s')
      end
  end.

(** Lines 108-115 of [disable_apis]: the document to write back and the
    list of remaining services *)
Definition disable_update (config : json) (services : list string) (now : string)
    : result (json * list json) :=
  let* apis := py_get config "apis" (JObj []) in
  let* en := py_get apis "enabled" (JList []) in
  let* items := py_iter en in
  let enabled := filter (fun x => negb (py_in_strs x services)) items in
  match config with
  | JObj fs =>
      let* apis' := Dict.getitem fs "apis" in
      match apis' with
      | JObj afs =>
          let fs1 := Dict.setitem fs "apis" (JObj (Dict.setitem afs "enabled" (JList enabled))) in
          let fs2 := Dict.setitem fs1 "updatedAt" (JStr now) in
          Ok (JObj fs2, enabled)
      | _ => Err TypeError
      end
  | _ => Err TypeError
  end.

(** [disable_apis(product_code, services)] *)
Definition disable_apis (c : container) (product_code : string)
    (services : list string) (now : string) : result json * container :=
  match c with
  | None => (Err NotInitialized, c)
  | Some s =>
      let r :=
        let* config := read_item s (config_id product_code) product_code in
        let* upd := disable_update config services now in
        let* s' := upsert_item s (fst upd) in
        Ok (JObj [("success", JBool true);
                  ("productCode", JStr product_code);
                  ("disabledServices", JList (map JStr services));
                  ("remainingServices", JList (snd upd))], s') in
      match r with
      | Ok (resp, s') => (Ok resp, Some s')
      | Err e => (Err e, c)
      end
  end.

(** The status dict built from a document that was read, lines 144-153 *)
Definition project_status (product_code : string) (config : json) : result json :=
  let* apis := py_get config "apis" (JObj []) in
  let* en := py_get apis "enabled" (JList []) in
  let* a := py_get config "analytics" (JObj []) in
  let* a_en := py_get a "enabled" (JBool false) in
  let* t := py_get config "tags" (JObj []) in
  let* t_en := py_get t "enabled" (JBool false) in
  let* s := py_get config "adsense" (JObj []) in
  let* s_en := py_get s "enabled" (JBool false) in
  let* d := py_get config "ads" (JObj []) in
  let* d_en := py_get d "enabled" (JBool false) in
  let* name := py_get config "productName" JNull in
  let* upd := py_get config "updatedAt" JNull in
  Ok (JObj [("productCode", JStr product_code);
            ("productName", name);
            ("enabledServices", en);
            ("analytics", a_en);
            ("tags", t_en);
            ("adsense", s_en);
            ("ads", d_en);
            ("updatedAt", upd)]).

(** The status returned by the inner [except Exception], lines 157-164 *)
Definition default_status (product_code : string) : json :=
  JObj [("productCode", JStr product_code);
        ("enabledServices", JList []);
        ("analytics", JBool false);
        ("tags", JBool false);
        ("adsense", JBool false);
        ("ads", JBool false)].

(** [get_status(product_code)]: the store is only read *)
Definition get_status (c : container) (product_code : string) : result json :=
  match c with
  | None => Err NotInitialized
  | Some s =>
      match (let* config := read_item s (config_id product_code) product_code in
             project_status product_code config) with
      | Ok st => Ok st
      | Err _ => Ok (default_status product_code)
      end
  end.

End ServiceManager.

(** ** Well-formed stores: every document sits under its own key *)

Definition store_wf (s : store) : bool :=
  forallb (fun e => match doc_key (snd e) with
                    | Some k => key_eqb k (fst e)
                    | None => false
                    end) (docs s).

(** A read of a document field that is absent when missing *)
Definition field (d : json) (k : string) : json :=
  match d with
  | JObj fs => Dict.get fs k JNull
  | _ => JNull
  end.

(** ** Basic facts *)

Lemma eqb_false_neq (a b : string) : a <> b -> String.eqb a b = false.
Proof. intro H. apply String.eqb_neq. exact H. Qed.

Lemma key_eqb_refl (k : key) : key_eqb k k = true.
Proof. destruct k as [a b]. unfold key_eqb; simpl. now rewrite !String.eqb_refl. Qed.

Lemma key_eqb_eq (k1 k2 : key) : key_eqb k1 k2 = true -> k1 = k2.
Proof.
  destruct k1 as [a b], k2 as [c d]; unfold key_eqb; simpl.
  intro H. apply andb_prop in H as [H1 H2].
  apply String.eqb_eq in H1, H2. now subst.
Qed.

Lemma get_setitem_same d k v dflt : Dict.get (Dict.setitem d k v) k dflt = v.
Proof.
  induction d as [|[k' v'] d IH]; simpl.
  - now rewrite String.eqb_refl.
  - destruct (String.eqb k k') eqn:E; simpl.
    + now rewrite E.
    + now rewrite E.
Qed.

Lemma get_setitem_other d k k' v dflt :
  k <> k' -> Dict.get (Dict.setitem d k v) k' dflt = Dict.get d k' dflt.
Proof.
  intro Hne. induction d as [|[k0 v0] d IH]; simpl.
  - rewrite String.eqb_sym. now rewrite eqb_false_neq.
  - destruct (String.eqb k k0) eqn:E; simpl.
    + apply String.eqb_eq in E. subst k0.
      now rewrite (String.eqb_sym k' k), eqb_false_neq.
    + now rewrite IH.
Qed.

Lemma getitem_get d k v dflt : Dict.getitem d k = Ok v -> Dict.get d k dflt = v.
Proof.
  induction d as [|[k' v'] d IH]; simpl; [discriminate|].
  destruct (String.eqb k k'); [congruence | exact IH].
Qed.

Lemma lookup_filter_other (ds : list (key * json)) (k k' : key) :
  key_eqb k' k = false ->
  lookup (filter (fun e => negb (key_eqb k (fst e))) ds) k' = lookup ds k'.
Proof.
  intro Hne. induction ds as [|[k0 d0] ds IH]; simpl; [reflexivity|].
  destruct (key_eqb k k0) eqn:E; simpl.
  - apply key_eqb_eq in E. subst k0. now rewrite Hne.
  - now rewrite IH.
Qed.

Lemma upsert_item_ok s d k :
  healthy s = true -> doc_key d = Some k ->
  exists s', upsert_item s d = Ok s' /\ healthy s' = true /\ doc_at s' k = Some d /\
             (forall k', key_eqb k' k = false -> doc_at s' k' = doc_at s k').
Proof.
  intros Hh Hk. unfold upsert_item. rewrite Hh, Hk.
  eexists; split; [reflexivity|]. repeat split; unfold doc_at; simpl.
  - now rewrite key_eqb_refl.
  - intros k' Hne. rewrite Hne. now apply lookup_filter_other.
Qed.

Lemma lookup_wf s k d :
  store_wf s = true -> doc_at s k = Some d -> doc_key d = Some k.
Proof.
  unfold store_wf, doc_at. destruct s as [ds h]; simpl. intros Hwf.
  induction ds as [|[k0 d0] ds IH]; simpl in *; [discriminate|].
  apply andb_prop in Hwf as [H0 Hwf].
  destruct (key_eqb k k0) eqn:E.
  - intro Hd. injection Hd as <-. apply key_eqb_eq in E. subst k0.
    destruct (doc_key d0) as [k'|]; [|discriminate].
    apply key_eqb_eq in H0. now subst.
  - now apply IH.
Qed.

(** The keys of a document, in order *)
Definition doc_fields (d : json) : list string :=
  match d with
  | JObj fs => map fst fs
  | _ => []
  end.

Definition known_services : list string := ["analytics"; "tags"; "adsense"; "ads"].

Definition is_obj (j : json) : bool :=
  match j with
  | JObj _ => true
  | _ => false
  end.

(** [config.get(name, {}).get("enabled", False)] on a dict-shaped entry *)
Definition enabled_flag (fs : list (string * json)) (name : string) : json :=
  match Dict.get fs name (JObj []) with
  | JObj d => Dict.get d "enabled" (JBool false)
  | _ => JBool false
  end.

Import ServiceManager.

(** ** Facts about the manager's operations *)

Lemma build_config_fields pc sv cfg now :
  doc_fields (build_config pc sv cfg now) =
  ["id"; "productCode"; "productName"; "apis"; "updatedAt"]
    ++ filter (fun n => existsb (String.eqb n) sv) known_services.
Proof.
  unfold build_config, known_services; cbv beta zeta; cbn [filter].
  destruct (existsb (String.eqb "analytics") sv), (existsb (String.eqb "tags") sv),
           (existsb (String.eqb "adsense") sv), (existsb (String.eqb "ads") sv);
    reflexivity.
Qed.

Lemma build_config_base pc sv cfg now :
  field (build_config pc sv cfg now) "id" = JStr (config_id pc) /\
  field (build_config pc sv cfg now) "productCode" = JStr pc /\
  field (build_config pc sv cfg now) "productName" = Dict.get cfg "productName" (JStr pc) /\
  field (build_config pc sv cfg now) "apis" = JObj [("enabled", JList (map JStr sv))] /\
  field (build_config pc sv cfg now) "updatedAt" = JStr now.
Proof.
  unfold build_config; cbv beta zeta.
  destruct (existsb (String.eqb "analytics") sv), (existsb (String.eqb "tags") sv),
           (existsb (String.eqb "adsense") sv), (existsb (String.eqb "ads") sv);
    repeat split.
Qed.

Lemma build_config_key pc sv cfg now :
  doc_key (build_config pc sv cfg now) = Some (config_id pc, pc).
Proof.
  unfold build_config; cbv beta zeta.
  destruct (existsb (String.eqb "analytics") sv), (existsb (String.eqb "tags") sv),
           (existsb (String.eqb "adsense") sv), (existsb (String.eqb "ads") sv);
    reflexivity.
Qed.

Lemma build_config_clock pc sv cfg now1 now2 k :
  k <> "updatedAt" ->
  field (build_config pc sv cfg now1) k = field (build_config pc sv cfg now2) k.
Proof.
  intro Hk. unfold build_config, field; cbv beta zeta.
  destruct (existsb (String.eqb "analytics") sv), (existsb (String.eqb "tags") sv),
           (existsb (String.eqb "adsense") sv), (existsb (String.eqb "ads") sv);
    simpl; rewrite (eqb_false_neq k "updatedAt" Hk); reflexivity.
Qed.

Lemma enable_apis_ok s pc sv cfg now :
  healthy s = true ->
  exists r s', enable_apis (Some s) pc sv cfg now = (Ok r, Some s') /\
    healthy s' = true /\
    doc_at s' (config_id pc, pc) = Some (build_config pc sv cfg now) /\
    (forall k', key_eqb k' (config_id pc, pc) = false -> doc_at s' k' = doc_at s k').
Proof.
  intro Hh.
  destruct (upsert_item_ok s (build_config pc sv cfg now) (config_id pc, pc) Hh
              (build_config_key pc sv cfg now)) as (s' & Hu & Hh' & Hat & Hoth).
  unfold enable_apis. rewrite Hu.
  do 2 eexists; split; [reflexivity|]. auto.
Qed.

Lemma disable_update_ok fs afs l sv now :
  Dict.getitem fs "apis" = Ok (JObj afs) ->
  Dict.get afs "enabled" (JList []) = JList l ->
  disable_update (JObj fs) sv now =
  Ok (JObj (Dict.setitem
              (Dict.setitem fs "apis"
                 (JObj (Dict.setitem afs "enabled"
                          (JList (filter (fun x => negb (py_in_strs x sv)) l)))))
              "updatedAt" (JStr now)),
      filter (fun x => negb (py_in_strs x sv)) l).
Proof.
  intros Ha He. unfold disable_update. simpl.
  rewrite (getitem_get _ _ _ (JObj []) Ha). simpl. rewrite He. simpl.
  rewrite Ha. reflexivity.
Qed.

Lemma doc_key_setitem fs k v :
  k <> "id" -> k <> "productCode" ->
  doc_key (JObj (Dict.setitem fs k v)) = doc_key (JObj fs).
Proof.
  intros H1 H2. unfold doc_key.
  rewrite (get_setitem_other fs k "id" v JNull H1).
  rewrite (get_setitem_other fs k "productCode" v JNull H2).
  reflexivity.
Qed.

Lemma disable_apis_ok s pc sv now fs afs l :
  healthy s = true -> store_wf s = true ->
  doc_at s (config_id pc, pc) = Some (JObj fs) ->
  Dict.getitem fs "apis" = Ok (JObj afs) ->
  Dict.get afs "enabled" (JList []) = JList l ->
  exists s',
    disable_apis (Some s) pc sv now =
      (Ok (JObj [("success", JBool true);
                 ("productCode", JStr pc);
                 ("disabledServices", JList (map JStr sv));
                 ("remainingServices",
                    JList (filter (fun x => negb (py_in_strs x sv)) l))]),
       Some s') /\
    healthy s' = true /\
    doc_at s' (config_id pc, pc) =
      Some (JObj (Dict.setitem
                    (Dict.setitem fs "apis"
                       (JObj (Dict.setitem afs "enabled"
                                (JList (filter (fun x => negb (py_in_strs x sv)) l)))))
                    "updatedAt" (JStr now))) /\
    (forall k', key_eqb k' (config_id pc, pc) = false -> doc_at s' k' = doc_at s k').
Proof.
  intros Hh Hwf Hat Ha He.
  pose proof (lookup_wf s _ _ Hwf Hat) as Hk.
  set (fs' := Dict.setitem
                (Dict.setitem fs "apis"
                   (JObj (Dict.setitem afs "enabled"
                            (JList (filter (fun x => negb (py_in_strs x sv)) l)))))
                "updatedAt" (JStr now)).
  assert (Hk' : doc_key (JObj fs') = Some (config_id pc, pc)).
  { unfold fs'. rewrite doc_key_setitem by discriminate.
    rewrite doc_key_setitem by discriminate. exact Hk. }
  destruct (upsert_item_ok s (JObj fs') _ Hh Hk') as (s' & Hu & Hh' & Hat' & Hoth).
  exists s'. unfold disable_apis, read_item. rewrite Hh, Hat. cbn [bind].
  rewrite (disable_update_ok fs afs l sv now Ha He). cbn [bind fst snd].
  fold fs'. rewrite Hu. cbn [bind]. auto.
Qed.

(** ** C1: the per-service booleans of [get_status] *)

Definition grid_config : list (string * json) :=
  [("analytics", JObj [("propertyId", JStr "G-1")]);
   ("ads", JObj [("customerId", JStr "123")])].

(** C1 (counterexample): after [enable("GRID", [analytics, ads], grid_config)]
    on an empty store, [get_status("GRID")] lists analytics and ads as
    enabled services but reports [analytics] and [ads] as [False]. *)
Lemma C1_get_status_not_membership :
  exists st,
    get_status (snd (enable_apis (Some (mkStore [] true)) "GRID"
                       ["analytics"; "ads"] grid_config "2026-10-16T00:00:00"))
               "GRID" = Ok st /\
    field st "enabledServices" = JList [JStr "analytics"; JStr "ads"] /\
    field st "analytics" = JBool false /\
    field st "ads" = JBool false.
Proof.
  eexists. split; [vm_compute; reflexivity|]. repeat split.
Qed.

(** C1 (amended): when the document read for [product_code] has [apis] and
    each service entry either absent or a dict, [get_status] returns
    [enabledServices] = [apis.enabled] and, for each of analytics, tags,
    adsense and ads, the ["enabled"] field of that service's settings
    sub-object (False when the sub-object or the field is absent), together
    with [productName] and [updatedAt]. *)
Theorem C1_get_status_projection s pc fs :
  read_item s (config_id pc) pc = Ok (JObj fs) ->
  forallb (fun k => is_obj (Dict.get fs k (JObj []))) ("apis" :: known_services) = true ->
  get_status (Some s) pc =
  Ok (JObj [("productCode", JStr pc);
            ("productName", Dict.get fs "productName" JNull);
            ("enabledServices",
               match Dict.get fs "apis" (JObj []) with
               | JObj a => Dict.get a "enabled" (JList [])
               | _ => JNull
               end);
            ("analytics", enabled_flag fs "analytics");
            ("tags", enabled_flag fs "tags");
            ("adsense", enabled_flag fs "adsense");
            ("ads", enabled_flag fs "ads");
            ("updatedAt", Dict.get fs "updatedAt" JNull)]).
Proof.
  intros Hr Hshape. unfold get_status. rewrite Hr. cbn [bind].
  unfold known_services in Hshape. cbn [forallb] in Hshape.
  unfold project_status, enabled_flag, py_get. cbn [bind].
  destruct (Dict.get fs "apis" (JObj [])); try discriminate;
  destruct (Dict.get fs "analytics" (JObj [])); try discriminate;
  destruct (Dict.get fs "tags" (JObj [])); try discriminate;
  destruct (Dict.get fs "adsense" (JObj [])); try discriminate;
  destruct (Dict.get fs "ads" (JObj [])); try discriminate.
  reflexivity.
Qed.

Definition grid_doc : list (string * json) :=
  [("id", JStr "grid-google-config"); ("productCode", JStr "GRID");
   ("productName", JStr "GRID");
   ("apis", JObj [("enabled", JList [JStr "analytics"; JStr "ads"])]);
   ("updatedAt", JStr "2026-10-16T00:00:00");
   ("analytics", JObj [("propertyId", JStr "G-1"); ("enabled", JBool true)]);
   ("ads", JObj [("customerId", JStr "123")])].

Lemma C1_get_status_projection_witness :
  read_item (mkStore [(("grid-google-config", "GRID"), JObj grid_doc)] true)
            (config_id "GRID") "GRID" = Ok (JObj grid_doc) /\
  get_status (Some (mkStore [(("grid-google-config", "GRID"), JObj grid_doc)] true)) "GRID" =
  Ok (JObj [("productCode", JStr "GRID");
            ("productName", Dict.get grid_doc "productName" JNull);
            ("enabledServices",
               match Dict.get grid_doc "apis" (JObj []) with
               | JObj a => Dict.get a "enabled" (JList [])
               | _ => JNull
               end);
            ("analytics", enabled_flag grid_doc "analytics");
            ("tags", enabled_flag grid_doc "tags");
            ("adsense", enabled_flag grid_doc "adsense");
            ("ads", enabled_flag grid_doc "ads");
            ("updatedAt", Dict.get grid_doc "updatedAt" JNull)]).
Proof.
  split; [vm_compute; reflexivity|].
  apply C1_get_status_projection; vm_compute; reflexivity.
Defined.

(** ** C2: [enable_apis] writes a full replacement document *)

(** C2: on a working store, [enable_apis] succeeds and leaves under the key
    of [product_code] exactly [build_config product_code services config now],
    whatever was stored there before; that document lists [services] as
    [apis.enabled] and carries settings only for the known services listed in
    [services]; two documents built from the same arguments agree on every
    field except [updatedAt]; in particular enabling [analytics] and then
    [tags] leaves a document enabling [tags] only, with no [analytics] entry. *)
Theorem C2_enable_full_replace :
  (forall s pc sv cfg now,
     healthy s = true ->
     exists r s', enable_apis (Some s) pc sv cfg now = (Ok r, Some s') /\
       doc_at s' (config_id pc, pc) = Some (build_config pc sv cfg now)) /\
  (forall pc sv cfg now,
     field (field (build_config pc sv cfg now) "apis") "enabled" = JList (map JStr sv) /\
     doc_fields (build_config pc sv cfg now) =
       ["id"; "productCode"; "productName"; "apis"; "updatedAt"]
         ++ filter (fun n => existsb (String.eqb n) sv) known_services) /\
  (forall pc sv cfg now1 now2 k,
     k <> "updatedAt" ->
     field (build_config pc sv cfg now1) k = field (build_config pc sv cfg now2) k) /\
  (forall s pc cfgA cfgB t1 t2,
     healthy s = true ->
     exists r1 s1 r2 s2 d,
       enable_apis (Some s) pc ["analytics"] cfgA t1 = (Ok r1, Some s1) /\
       enable_apis (Some s1) pc ["tags"] cfgB t2 = (Ok r2, Some s2) /\
       doc_at s2 (config_id pc, pc) = Some d /\
       field (field d "apis") "enabled" = JList [JStr "tags"] /\
       doc_fields d = ["id"; "productCode"; "productName"; "apis"; "updatedAt"; "tags"]).
Proof.
  split; [|split; [|split]].
  - intros s pc sv cfg now Hh.
    destruct (enable_apis_ok s pc sv cfg now Hh) as (r & s' & He & _ & Hat & _).
    eauto.
  - intros pc sv cfg now. split.
    + destruct (build_config_base pc sv cfg now) as (_ & _ & _ & Ha & _).
      rewrite Ha. reflexivity.
    + apply build_config_fields.
  - intros. now apply build_config_clock.
  - intros s pc cfgA cfgB t1 t2 Hh.
    destruct (enable_apis_ok s pc ["analytics"] cfgA t1 Hh) as (r1 & s1 & He1 & Hh1 & _).
    destruct (enable_apis_ok s1 pc ["tags"] cfgB t2 Hh1) as (r2 & s2 & He2 & _ & Hat2 & _).
    exists r1, s1, r2, s2, (build_config pc ["tags"] cfgB t2).
    repeat split; auto.
Qed.

Lemma C2_enable_full_replace_witness :
  healthy (mkStore [] true) = true /\
  exists r1 s1 r2 s2 d,
    enable_apis (Some (mkStore [] true)) "P" ["analytics"] grid_config "t1" = (Ok r1, Some s1) /\
    enable_apis (Some s1) "P" ["tags"] [] "t2" = (Ok r2, Some s2) /\
    doc_at s2 (config_id "P", "P") = Some d /\
    field (field d "apis") "enabled" = JList [JStr "tags"] /\
    doc_fields d = ["id"; "productCode"; "productName"; "apis"; "updatedAt"; "tags"].
Proof.
  split; [reflexivity|].
  apply (proj2 (proj2 (proj2 C2_enable_full_replace))). reflexivity.
Defined.

(** ** C3: settings entries versus [apis.enabled] *)

Definition c3_config : list (string * json) :=
  [("analytics", JObj [("propertyId", JStr "G-1")]);
   ("tags", JObj [("containerId", JStr "GTM-1")])].

(** C3 (counterexample): [enable("P", [analytics, tags])] followed by
    [disable("P", [analytics])] writes a document whose [apis.enabled] is
    [[tags]] but which still carries the [analytics] settings entry. *)
Lemma C3_disable_keeps_settings :
  match enable_apis (Some (mkStore [] true)) "P" ["analytics"; "tags"] c3_config "t1" with
  | (Ok _, c1) =>
      match disable_apis c1 "P" ["analytics"] "t2" with
      | (Ok _, Some s2) =>
          match doc_at s2 ("p-google-config", "P") with
          | Some d =>
              field (field d "apis") "enabled" = JList [JStr "tags"] /\
              existsb (String.eqb "analytics") (doc_fields d) = true /\
              field d "analytics" = JObj [("propertyId", JStr "G-1")]
          | None => False
          end
      | _ => False
      end
  | _ => False
  end.
Proof. vm_compute. repeat split. Qed.

(** C3 (amended): a document written by [enable_apis] carries a settings
    entry for a known service exactly when that service is listed in
    [services] (so its settings keys are within [apis.enabled]); a document
    written by [disable_apis] keeps every settings entry of the document it
    read, including those of the services it removed from [apis.enabled]. *)
Theorem C3_settings_on_write :
  (forall s pc sv cfg now,
     healthy s = true ->
     exists r s' d, enable_apis (Some s) pc sv cfg now = (Ok r, Some s') /\
       doc_at s' (config_id pc, pc) = Some d /\
       field (field d "apis") "enabled" = JList (map JStr sv) /\
       (forall n, In n known_services -> In n (doc_fields d) <-> In n sv)) /\
  (forall s pc sv now fs afs l,
     healthy s = true -> store_wf s = true ->
     doc_at s (config_id pc, pc) = Some (JObj fs) ->
     Dict.getitem fs "apis" = Ok (JObj afs) ->
     Dict.get afs "enabled" (JList []) = JList l ->
     exists r s' fs', disable_apis (Some s) pc sv now = (Ok r, Some s') /\
       doc_at s' (config_id pc, pc) = Some (JObj fs') /\
       (forall n, In n known_services -> Dict.get fs' n JNull = Dict.get fs n JNull)).
Proof.
  split.
  - intros s pc sv cfg now Hh.
    destruct (enable_apis_ok s pc sv cfg now Hh) as (r & s' & He & _ & Hat & _).
    exists r, s', (build_config pc sv cfg now).
    split; [exact He|]. split; [exact Hat|]. split.
    + destruct (build_config_base pc sv cfg now) as (_ & _ & _ & Ha & _).
      rewrite Ha. reflexivity.
    + intros n Hn. rewrite build_config_fields. split.
      * intro Hin. apply in_app_or in Hin as [Hin | Hin].
        -- unfold known_services in Hn. simpl in Hn, Hin.
           exfalso. intuition (subst; discriminate).
        -- apply filter_In in Hin as [_ Hin].
           apply existsb_exists in Hin as (x & Hx & Heq).
           apply String.eqb_eq in Heq. now subst.
      * intro Hin. apply in_or_app. right. apply filter_In. split; [exact Hn|].
        apply existsb_exists. exists n. split; [exact Hin | apply String.eqb_refl].
  - intros s pc sv now fs afs l Hh Hwf Hat Ha He.
    destruct (disable_apis_ok s pc sv now fs afs l Hh Hwf Hat Ha He)
      as (s' & Hd & _ & Hat' & _).
    do 3 eexists. split; [exact Hd|]. split; [exact Hat'|].
    intros n Hn. unfold known_services in Hn.
    rewrite get_setitem_other by (simpl in Hn; intuition (subst; discriminate)).
    rewrite get_setitem_other by (simpl in Hn; intuition (subst; discriminate)).
    reflexivity.
Qed.

Lemma C3_settings_on_write_witness :
  healthy (mkStore [] true) = true /\
  exists r s' d,
    enable_apis (Some (mkStore [] true)) "P" ["analytics"; "tags"] c3_config "t1" = (Ok r, Some s') /\
    doc_at s' (config_id "P", "P") = Some d /\
    field (field d "apis") "enabled" = JList (map JStr ["analytics"; "tags"]) /\
    (forall n, In n known_services -> In n (doc_fields d) <-> In n ["analytics"; "tags"]).
Proof.
  split; [reflexivity|].
  apply (proj1 C3_settings_on_write). reflexivity.
Defined.

(** ** C4: service names are not validated *)

(** C4 (counterexample): [enable("P", ["youtube"], {})] succeeds and stores
    [apis.enabled = ["youtube"]]. *)
Lemma C4_unknown_service_stored :
  match enable_apis (Some (mkStore [] true)) "P" ["youtube"] [] "t1" with
  | (Ok r, Some s') =>
      field r "enabledServices" = JList [JStr "youtube"] /\
      option_map (fun d => field (field d "apis") "enabled")
                 (doc_at s' ("p-google-config", "P")) = Some (JList [JStr "youtube"])
  | _ => False
  end.
Proof. vm_compute. split; reflexivity. Qed.

(** C4 (amended): [enable_apis] accepts any list of service names: on a
    working store it succeeds and stores [services] verbatim as
    [apis.enabled]; only the four known names receive a settings entry. *)
Theorem C4_enable_accepts_any_names :
  forall s pc sv cfg now,
    healthy s = true ->
    exists r s' d, enable_apis (Some s) pc sv cfg now = (Ok r, Some s') /\
      field r "enabledServices" = JList (map JStr sv) /\
      doc_at s' (config_id pc, pc) = Some d /\
      field (field d "apis") "enabled" = JList (map JStr sv) /\
      doc_fields d = ["id"; "productCode"; "productName"; "apis"; "updatedAt"]
                       ++ filter (fun n => existsb (String.eqb n) sv) known_services.
Proof.
  intros s pc sv cfg now Hh.
  destruct (enable_apis_ok s pc sv cfg now Hh) as (r & s' & He & _ & Hat & _).
  exists r, s', (build_config pc sv cfg now).
  split; [exact He|].
  split.
  { unfold enable_apis in He. destruct (upsert_item s _); [|discriminate].
    injection He as <- _. reflexivity. }
  split; [exact Hat|]. split.
  - destruct (build_config_base pc sv cfg now) as (_ & _ & _ & Ha & _).
    rewrite Ha. reflexivity.
  - apply build_config_fields.
Qed.

Lemma C4_enable_accepts_any_names_witness :
  healthy (mkStore [] true) = true /\
  exists r s' d,
    enable_apis (Some (mkStore [] true)) "P" ["youtube"; "analytics"] [] "t1" = (Ok r, Some s') /\
    field r "enabledServices" = JList (map JStr ["youtube"; "analytics"]) /\
    doc_at s' (config_id "P", "P") = Some d /\
    field (field d "apis") "enabled" = JList (map JStr ["youtube"; "analytics"]) /\
    doc_fields d = ["id"; "productCode"; "productName"; "apis"; "updatedAt"]
                     ++ filter (fun n => existsb (String.eqb n) ["youtube"; "analytics"])
                               known_services.
Proof.
  split; [reflexivity|].
  apply C4_enable_accepts_any_names. reflexivity.
Defined.

(** ** C5: [get_status] of a product whose document cannot be read *)

(** C5: when the container is initialised and the document of
    [product_code] is absent or its read fails for any reason, [get_status]
    returns the default status: empty [enabledServices], the four booleans
    False, and no [productName] or [updatedAt]. *)
Theorem C5_get_status_default s pc :
  (doc_at s (config_id pc, pc) = None \/
   exists e, read_item s (config_id pc) pc = Err e) ->
  get_status (Some s) pc =
  Ok (JObj [("productCode", JStr pc);
            ("enabledServices", JList []);
            ("analytics", JBool false);
            ("tags", JBool false);
            ("adsense", JBool false);
            ("ads", JBool false)]).
Proof.
  intro H.
  assert (Hr : exists e, read_item s (config_id pc) pc = Err e).
  { destruct H as [Hn | He]; [|exact He].
    unfold read_item. rewrite Hn. destruct (healthy s); eauto. }
  destruct Hr as (e & Hr). unfold get_status. rewrite Hr. reflexivity.
Qed.

Lemma C5_get_status_default_witness :
  doc_at (mkStore [] true) (config_id "NEWPRODUCT", "NEWPRODUCT") = None /\
  get_status (Some (mkStore [] true)) "NEWPRODUCT" =
  Ok (JObj [("productCode", JStr "NEWPRODUCT");
            ("enabledServices", JList []);
            ("analytics", JBool false);
            ("tags", JBool false);
            ("adsense", JBool false);
            ("ads", JBool false)]).
Proof.
  split; [reflexivity|].
  apply C5_get_status_default. left. reflexivity.
Defined.

(** ** C6: [disable_apis] needs an existing document *)

(** C6: when no document is stored under the key of [product_code],
    [disable_apis] fails and leaves the container unchanged. *)
Theorem C6_disable_requires_document s pc sv now :
  doc_at s (config_id pc, pc) = None ->
  exists e, disable_apis (Some s) pc sv now = (Err e, Some s).
Proof.
  intro Hn. unfold disable_apis, read_item. rewrite Hn.
  destruct (healthy s); cbn [bind]; eauto.
Qed.

Lemma C6_disable_requires_document_witness :
  doc_at (mkStore [] true) (config_id "NEWPRODUCT", "NEWPRODUCT") = None /\
  exists e, disable_apis (Some (mkStore [] true)) "NEWPRODUCT" ["analytics"] "t1" =
            (Err e, Some (mkStore [] true)).
Proof.
  split; [reflexivity|].
  apply C6_disable_requires_document. reflexivity.
Defined.

(** ** C7: an uninitialised container *)

(** C7: with no container, [enable_apis], [disable_apis] and [get_status]
    all raise the "Cosmos DB not initialized" error; [get_status] does not
    fall back to the default status. *)
Theorem C7_not_initialized pc sv cfg now :
  enable_apis None pc sv cfg now = (Err NotInitialized, None) /\
  disable_apis None pc sv now = (Err NotInitialized, None) /\
  get_status None pc = Err NotInitialized.
Proof. repeat split. Qed.

(** ** C8: the document key *)

Lemma upsert_item_at s d s' k :
  upsert_item s d = Ok s' -> doc_key d = Some k ->
  doc_at s' k = Some d /\
  (forall k', key_eqb k' k = false -> doc_at s' k' = doc_at s k').
Proof.
  intros Hu Hk. destruct (healthy s) eqn:Hh.
  - destruct (upsert_item_ok s d k Hh Hk) as (s'' & Hu' & _ & Hat & Hoth).
    rewrite Hu in Hu'. injection Hu' as ->. auto.
  - unfold upsert_item in Hu. rewrite Hh in Hu. discriminate.
Qed.

Lemma disable_update_key d sv now d' rem :
  disable_update d sv now = Ok (d', rem) -> doc_key d' = doc_key d.
Proof.
  unfold disable_update. destruct d as [| | | | |fs]; cbn [py_get bind]; try discriminate.
  destruct (py_get (Dict.get fs "apis" (JObj [])) "enabled" (JList [])) as [en|];
    cbn [bind]; [|discriminate].
  destruct (py_iter en); cbn [bind]; [|discriminate].
  destruct (Dict.getitem fs "apis") as [apis0|]; cbn [bind]; [|discriminate].
  destruct apis0; try discriminate.
  intro H. injection H as <- _.
  rewrite doc_key_setitem by discriminate.
  rewrite doc_key_setitem by discriminate. reflexivity.
Qed.

(** C8: the document id is [lower(product_code) ++ "-google-config"], so
    product codes that differ only in case get the same id ([TERP], [Terp]
    and [terp] all give ["terp-google-config"]); [enable_apis] writes the
    document carrying that id under the key [(config_id pc, pc)], a
    successful [disable_apis] reads and rewrites the document under that same
    key and touches no other key, and [get_status] depends on the store only
    through that key. *)
Theorem C8_config_key :
  (forall pc, config_id pc = (lower pc ++ "-google-config")%string) /\
  (forall p q, lower p = lower q -> config_id p = config_id q) /\
  config_id "TERP" = "terp-google-config" /\
  config_id "Terp" = "terp-google-config" /\
  config_id "terp" = "terp-google-config" /\
  (forall s pc sv cfg now r s',
     enable_apis (Some s) pc sv cfg now = (Ok r, Some s') ->
     exists d, doc_at s' (config_id pc, pc) = Some d /\
               field d "id" = JStr (config_id pc) /\
               field d "productCode" = JStr pc) /\
  (forall s pc sv now r s',
     store_wf s = true ->
     disable_apis (Some s) pc sv now = (Ok r, Some s') ->
     exists d d', doc_at s (config_id pc, pc) = Some d /\
                  doc_at s' (config_id pc, pc) = Some d' /\
                  (forall k', key_eqb k' (config_id pc, pc) = false ->
                              doc_at s' k' = doc_at s k')) /\
  (forall s1 s2 pc,
     healthy s1 = healthy s2 ->
     doc_at s1 (config_id pc, pc) = doc_at s2 (config_id pc, pc) ->
     get_status (Some s1) pc = get_status (Some s2) pc).
Proof.
  split; [reflexivity|]. split.
  { intros p q H. unfold config_id. now rewrite H. }
  split; [reflexivity|]. split; [reflexivity|]. split; [reflexivity|]. split; [|split].
  - intros s pc sv cfg now r s' He. unfold enable_apis in He.
    destruct (upsert_item s (build_config pc sv cfg now)) as [s''|] eqn:Hu;
      [|discriminate].
    injection He as _ ->.
    destruct (upsert_item_at _ _ _ _ Hu (build_config_key pc sv cfg now)) as [Hat _].
    exists (build_config pc sv cfg now). split; [exact Hat|].
    destruct (build_config_base pc sv cfg now) as (Hi & Hp & _). auto.
  - intros s pc sv now r s' Hwf Hd. unfold disable_apis in Hd.
    destruct (read_item s (config_id pc) pc) as [d|] eqn:Hr; cbn [bind] in Hd;
      [|discriminate].
    assert (Hat : doc_at s (config_id pc, pc) = Some d).
    { unfold read_item in Hr. destruct (healthy s); [|discriminate].
      destruct (doc_at s (config_id pc, pc)); congruence. }
    destruct (disable_update d sv now) as [[d' rem]|] eqn:Hu; cbn [bind fst snd] in Hd;
      [|discriminate].
    destruct (upsert_item s d') as [s''|] eqn:Hw; cbn [bind] in Hd; [|discriminate].
    injection Hd as _ ->.
    assert (Hk : doc_key d' = Some (config_id pc, pc)).
    { rewrite (disable_update_key _ _ _ _ _ Hu). exact (lookup_wf s _ _ Hwf Hat). }
    destruct (upsert_item_at _ _ _ _ Hw Hk) as [Hat' Hoth].
    exists d, d'. auto.
  - intros s1 s2 pc Hh Hd. unfold get_status, read_item. now rewrite Hh, Hd.
Qed.

Lemma C8_config_key_witness :
  lower "TERP" = lower "tErP" /\ config_id "TERP" = config_id "tErP".
Proof.
  split; [reflexivity|].
  apply (proj1 (proj2 C8_config_key)). reflexivity.
Defined.

(** ** C9 and C10: [disable_apis] on a stored document *)

Definition p_doc : list (string * json) :=
  [("id", JStr "p-google-config"); ("productCode", JStr "P");
   ("productName", JStr "Product P");
   ("apis", JObj [("enabled", JList [JStr "analytics"; JStr "tags"])]);
   ("updatedAt", JStr "t1");
   ("analytics", JObj [("propertyId", JStr "G-1")]);
   ("tags", JObj [("containerId", JStr "GTM-1")])].

Definition p_store : store := mkStore [(("p-google-config", "P"), JObj p_doc)] true.

Definition p_apis : list (string * json) :=
  [("enabled", JList [JStr "analytics"; JStr "tags"])].

(** C9: on a working, well-formed store holding for [product_code] a
    document whose [apis] is a dict with a list [enabled], [disable_apis]
    rewrites that document with [apis.enabled] replaced by the entries not
    named in [services] (an entry survives iff it was enabled and is not
    named), [updatedAt] set to the clock, and every other field ([id],
    [productCode], [productName], the settings entries) unchanged; other
    documents are untouched. *)
Theorem C9_disable_frame s pc sv now fs afs l :
  healthy s = true -> store_wf s = true ->
  doc_at s (config_id pc, pc) = Some (JObj fs) ->
  Dict.getitem fs "apis" = Ok (JObj afs) ->
  Dict.get afs "enabled" (JList []) = JList l ->
  exists r s' fs' rem,
    disable_apis (Some s) pc sv now = (Ok r, Some s') /\
    doc_at s' (config_id pc, pc) = Some (JObj fs') /\
    Dict.get fs' "apis" JNull = JObj (Dict.setitem afs "enabled" (JList rem)) /\
    (forall x, In x rem <-> In x l /\ py_in_strs x sv = false) /\
    Dict.get fs' "updatedAt" JNull = JStr now /\
    (forall k, k <> "apis" -> k <> "updatedAt" -> Dict.get fs' k JNull = Dict.get fs k JNull) /\
    (forall k', key_eqb k' (config_id pc, pc) = false -> doc_at s' k' = doc_at s k').
Proof.
  intros Hh Hwf Hat Ha He.
  destruct (disable_apis_ok s pc sv now fs afs l Hh Hwf Hat Ha He)
    as (s' & Hd & _ & Hat' & Hoth).
  do 4 eexists. split; [exact Hd|]. split; [exact Hat'|]. split.
  { rewrite get_setitem_other by discriminate. apply get_setitem_same. }
  split.
  { intro x. rewrite filter_In. rewrite negb_true_iff. reflexivity. }
  split; [apply get_setitem_same|]. split; [|exact Hoth].
  intros k H1 H2. rewrite get_setitem_other by congruence.
  rewrite get_setitem_other by congruence. reflexivity.
Qed.

Lemma C9_disable_frame_witness :
  exists r s' fs' rem,
    disable_apis (Some p_store) "P" ["analytics"] "t2" = (Ok r, Some s') /\
    doc_at s' (config_id "P", "P") = Some (JObj fs') /\
    Dict.get fs' "apis" JNull = JObj (Dict.setitem p_apis "enabled" (JList rem)) /\
    (forall x, In x rem <-> In x [JStr "analytics"; JStr "tags"] /\
                            py_in_strs x ["analytics"] = false) /\
    Dict.get fs' "updatedAt" JNull = JStr "t2" /\
    (forall k, k <> "apis" -> k <> "updatedAt" -> Dict.get fs' k JNull = Dict.get p_doc k JNull) /\
    (forall k', key_eqb k' (config_id "P", "P") = false -> doc_at s' k' = doc_at p_store k').
Proof.
  apply C9_disable_frame; vm_compute; reflexivity.
Defined.

(** C10: under the same conditions, [disable_apis] succeeds whatever names
    [services] holds, and its [remainingServices] is the stored
    [apis.enabled] list with every entry named in [services] removed, the
    surviving entries kept in order. *)
Theorem C10_disable_remaining s pc sv now fs afs l :
  healthy s = true -> store_wf s = true ->
  doc_at s (config_id pc, pc) = Some (JObj fs) ->
  Dict.getitem fs "apis" = Ok (JObj afs) ->
  Dict.get afs "enabled" (JList []) = JList l ->
  exists s',
    disable_apis (Some s) pc sv now =
      (Ok (JObj [("success", JBool true);
                 ("productCode", JStr pc);
                 ("disabledServices", JList (map JStr sv));
                 ("remainingServices",
                    JList (filter (fun x => negb (py_in_strs x sv)) l))]),
       Some s').
Proof.
  intros Hh Hwf Hat Ha He.
  destruct (disable_apis_ok s pc sv now fs afs l Hh Hwf Hat Ha He) as (s' & Hd & _).
  exists s'. exact Hd.
Qed.

Lemma C10_disable_remaining_witness :
  exists s',
    disable_apis (Some p_store) "P" ["ads"; "analytics"] "t2" =
      (Ok (JObj [("success", JBool true);
                 ("productCode", JStr "P");
                 ("disabledServices", JList (map JStr ["ads"; "analytics"]));
                 ("remainingServices",
                    JList (filter (fun x => negb (py_in_strs x ["ads"; "analytics"]))
                                  [JStr "analytics"; JStr "tags"]))]),
       Some s').
Proof.
  apply C10_disable_remaining with (fs := p_doc) (afs := p_apis);
    vm_compute; reflexivity.
Defined.

(** * Beyond the claims: how the manager's operations compose *)

Module Lifecycle.


(** A document as [disable_apis] can process it: a dict whose [apis] entry
    is a dict whose [enabled] entry is a list *)
Definition shaped (d : json) : bool :=
  match d with
  | JObj fs =>
      match Dict.getitem fs "apis" with
      | Ok (JObj afs) =>
          match Dict.get afs "enabled" (JList []) with
          | JList _ => true
          | _ => false
          end
      | _ => false
      end
  | _ => false
  end.

Definition store_inv (s : store) : bool :=
  store_wf s && forallb (fun e => shaped (snd e)) (docs s).

(** A sequence of calls to the manager *)
Inductive op : Type :=
| OpEnable (pc : string) (sv : list string) (cfg : list (string * json)) (now : string)
| OpDisable (pc : string) (sv : list string) (now : string)
| OpStatus (pc : string).

Definition step (c : container) (o : op) : container :=
  match o with
  | OpEnable pc sv cfg now => snd (enable_apis c pc sv cfg now)
  | OpDisable pc sv now => snd (disable_apis c pc sv now)
  | OpStatus _ => c
  end.

Definition run (c : container) (os : list op) : container := fold_left step os c.

End Lifecycle.

Import Lifecycle.

(** ** Facts used by the lifecycle properties *)

Lemma getitem_setitem_same d k v : Dict.getitem (Dict.setitem d k v) k = Ok v.
Proof.
  induction d as [|[k' v'] d IH]; simpl.
  - now rewrite String.eqb_refl.
  - destruct (String.eqb k k') eqn:E; simpl; rewrite E; [reflexivity | exact IH].
Qed.

Lemma getitem_setitem_other d k k' v :
  k <> k' -> Dict.getitem (Dict.setitem d k v) k' = Dict.getitem d k'.
Proof.
  intro Hne. induction d as [|[k0 v0] d IH]; simpl.
  - rewrite String.eqb_sym. now rewrite eqb_false_neq.
  - destruct (String.eqb k k0) eqn:E; simpl.
    + apply String.eqb_eq in E. subst k0.
      now rewrite (String.eqb_sym k' k), eqb_false_neq.
    + now rewrite IH.
Qed.


Lemma forallb_filter {A} (p q : A -> bool) l :
  forallb p l = true -> forallb p (filter q l) = true.
Proof.
  induction l as [|x l IH]; simpl; [reflexivity|].
  intro H. apply andb_prop in H as [Hx Hl].
  destruct (q x); simpl; [rewrite Hx|]; auto.
Qed.

Lemma upsert_item_inv s d s' :
  store_inv s = true -> shaped d = true -> upsert_item s d = Ok s' ->
  store_inv s' = true /\ healthy s' = healthy s.
Proof.
  intros Hi Hd Hu. unfold upsert_item in Hu.
  destruct (healthy s) eqn:Hh; [|discriminate].
  destruct (doc_key d) as [k|] eqn:Hk; [|discriminate].
  injection Hu as <-. unfold store_inv, store_wf in *. simpl.
  apply andb_prop in Hi as [Hwf Hsh].
  rewrite Hk, key_eqb_refl, Hd. simpl.
  rewrite (forallb_filter _ _ _ Hwf), (forallb_filter _ _ _ Hsh). auto.
Qed.

Lemma build_config_shaped pc sv cfg now : shaped (build_config pc sv cfg now) = true.
Proof.
  unfold build_config; cbv beta zeta.
  destruct (existsb (String.eqb "analytics") sv), (existsb (String.eqb "tags") sv),
           (existsb (String.eqb "adsense") sv), (existsb (String.eqb "ads") sv);
    reflexivity.
Qed.

Lemma disable_update_shaped d sv now d' rem :
  disable_update d sv now = Ok (d', rem) -> shaped d' = true.
Proof.
  unfold disable_update. destruct d as [| | | | |fs]; cbn [py_get bind]; try discriminate.
  destruct (py_get (Dict.get fs "apis" (JObj [])) "enabled" (JList [])) as [en|];
    cbn [bind]; [|discriminate].
  destruct (py_iter en); cbn [bind]; [|discriminate].
  destruct (Dict.getitem fs "apis") as [apis0|]; cbn [bind]; [|discriminate].
  destruct apis0; try discriminate.
  intro H. injection H as <- _. unfold shaped.
  rewrite getitem_setitem_other by discriminate.
  rewrite getitem_setitem_same. now rewrite get_setitem_same.
Qed.

Lemma step_inv s o :
  store_inv s = true ->
  exists s', step (Some s) o = Some s' /\ store_inv s' = true /\ healthy s' = healthy s.
Proof.
  intro Hi. destruct o as [pc sv cfg now | pc sv now | pc]; simpl.
  - unfold enable_apis.
    destruct (upsert_item s (build_config pc sv cfg now)) as [s'|] eqn:Hu; simpl.
    + exists s'. split; [reflexivity|].
      exact (upsert_item_inv _ _ _ Hi (build_config_shaped pc sv cfg now) Hu).
    + eauto.
  - unfold disable_apis.
    destruct (read_item s (config_id pc) pc) as [d|]; cbn [bind]; [|simpl; eauto].
    destruct (disable_update d sv now) as [[d' rem]|] eqn:Hd; cbn [bind fst snd];
      [|simpl; eauto].
    destruct (upsert_item s d') as [s'|] eqn:Hu; cbn [bind]; simpl; [|eauto].
    exists s'. split; [reflexivity|].
    exact (upsert_item_inv _ _ _ Hi (disable_update_shaped _ _ _ _ _ Hd) Hu).
  - eauto.
Qed.

Lemma run_inv os : forall s,
  store_inv s = true ->
  exists s', run (Some s) os = Some s' /\ store_inv s' = true /\ healthy s' = healthy s.
Proof.
  induction os as [|o os IH]; intros s Hi; simpl.
  - eauto.
  - destruct (step_inv s o Hi) as (s1 & Hs1 & Hi1 & Hh1).
    unfold run in IH. rewrite Hs1.
    destruct (IH s1 Hi1) as (s2 & Hs2 & Hi2 & Hh2).
    exists s2. split; [exact Hs2|]. split; [exact Hi2|]. congruence.
Qed.

(** The boolean [get_status] reports for a service after [enable_apis]:
    the ["enabled"] field of the settings copied from [config] when the
    service is listed, False otherwise *)
Definition listed_flag (sv : list string) (cfg : list (string * json)) (name : string)
  : json :=
  if existsb (String.eqb name) sv then
    match Dict.get cfg name (JObj []) with
    | JObj d => Dict.get d "enabled" (JBool false)
    | _ => JBool false
    end
  else JBool false.

Lemma read_item_at s k1 k2 d :
  healthy s = true -> doc_at s (k1, k2) = Some d -> read_item s k1 k2 = Ok d.
Proof. intros Hh Hat. unfold read_item. now rewrite Hh, Hat. Qed.


Lemma disable_apis_frame s pc sv now r c' :
  store_wf s = true ->
  disable_apis (Some s) pc sv now = (r, c') ->
  exists s', c' = Some s' /\ healthy s' = healthy s /\
    (forall k', key_eqb k' (config_id pc, pc) = false -> doc_at s' k' = doc_at s k').
Proof.
  intros Hwf Hd. unfold disable_apis in Hd.
  destruct (read_item s (config_id pc) pc) as [d|] eqn:Hr; cbn [bind] in Hd;
    [|injection Hd as _ <-; eauto].
  assert (Hat : doc_at s (config_id pc, pc) = Some d).
  { unfold read_item in Hr. destruct (healthy s); [|discriminate].
    destruct (doc_at s (config_id pc, pc)); congruence. }
  destruct (disable_update d sv now) as [[d' rem]|] eqn:Hu; cbn [bind fst snd] in Hd;
    [|injection Hd as _ <-; eauto].
  destruct (upsert_item s d') as [s''|] eqn:Hw; cbn [bind] in Hd;
    [|injection Hd as _ <-; eauto].
  injection Hd as _ <-.
  assert (Hk : doc_key d' = Some (config_id pc, pc)).
  { rewrite (disable_update_key _ _ _ _ _ Hu). exact (lookup_wf s _ _ Hwf Hat). }
  destruct (upsert_item_at _ _ _ _ Hw Hk) as [_ Hoth].
  exists s''. split; [reflexivity|]. split; [|exact Hoth].
  unfold upsert_item in Hw. destruct (healthy s); [|discriminate].
  destruct (doc_key d'); [|discriminate]. injection Hw as <-. reflexivity.
Qed.

Lemma get_status_congr s1 s2 q :
  healthy s1 = healthy s2 ->
  doc_at s1 (config_id q, q) = doc_at s2 (config_id q, q) ->
  get_status (Some s1) q = get_status (Some s2) q.
Proof. intros Hh Hd. unfold get_status, read_item. now rewrite Hh, Hd. Qed.

(** ** Lifecycle properties *)

(** Enabling then reading the status: the status lists [services] and the
    product name ([config.productName], else the code); each service's
    boolean is the ["enabled"] field of the settings copied from [config]
    when the service is listed, and False when it is not, provided the
    settings entries of [config] are dicts. *)
Theorem enable_then_status s pc sv cfg now :
  healthy s = true ->
  forallb (fun k => is_obj (Dict.get cfg k (JObj []))) known_services = true ->
  exists r s', enable_apis (Some s) pc sv cfg now = (Ok r, Some s') /\
    get_status (Some s') pc =
    Ok (JObj [("productCode", JStr pc);
              ("productName", Dict.get cfg "productName" (JStr pc));
              ("enabledServices", JList (map JStr sv));
              ("analytics", listed_flag sv cfg "analytics");
              ("tags", listed_flag sv cfg "tags");
              ("adsense", listed_flag sv cfg "adsense");
              ("ads", listed_flag sv cfg "ads");
              ("updatedAt", JStr now)]).
Proof.
  intros Hh Hc.
  destruct (enable_apis_ok s pc sv cfg now Hh) as (r & s' & He & Hh' & Hat & _).
  exists r, s'. split; [exact He|].
  unfold get_status. rewrite (read_item_at _ _ _ _ Hh' Hat). cbn [bind].
  unfold known_services in Hc. cbn [forallb] in Hc.
  unfold build_config, listed_flag; cbv beta zeta.
  unfold project_status, py_get.
  destruct (existsb (String.eqb "analytics") sv), (existsb (String.eqb "tags") sv),
           (existsb (String.eqb "adsense") sv), (existsb (String.eqb "ads") sv);
  simpl;
  destruct (Dict.get cfg "analytics" (JObj [])); try discriminate;
  destruct (Dict.get cfg "tags" (JObj [])); try discriminate;
  destruct (Dict.get cfg "adsense" (JObj [])); try discriminate;
  destruct (Dict.get cfg "ads" (JObj [])); try discriminate;
  reflexivity.
Qed.

Definition grid_enabled_config : list (string * json) :=
  [("productName", JStr "Grid");
   ("analytics", JObj [("propertyId", JStr "G-1"); ("enabled", JBool true)]);
   ("ads", JObj [("customerId", JStr "123")])].

Lemma enable_then_status_witness :
  healthy (mkStore [] true) = true /\
  exists r s', enable_apis (Some (mkStore [] true)) "GRID" ["analytics"; "ads"]
                           grid_enabled_config "t1" = (Ok r, Some s') /\
    get_status (Some s') "GRID" =
    Ok (JObj [("productCode", JStr "GRID");
              ("productName", Dict.get grid_enabled_config "productName" (JStr "GRID"));
              ("enabledServices", JList (map JStr ["analytics"; "ads"]));
              ("analytics", listed_flag ["analytics"; "ads"] grid_enabled_config "analytics");
              ("tags", listed_flag ["analytics"; "ads"] grid_enabled_config "tags");
              ("adsense", listed_flag ["analytics"; "ads"] grid_enabled_config "adsense");
              ("ads", listed_flag ["analytics"; "ads"] grid_enabled_config "ads");
              ("updatedAt", JStr "t1")]).
Proof.
  split; [reflexivity|].
  apply enable_then_status; reflexivity.
Defined.





(** Product codes are isolated: an [enable_apis] or [disable_apis] call for
    [pc] does not change what [get_status] reports for a product [q] with a
    different key, for instance ["terp"] after a call for ["TERP"] (the id is
    the same, the partition key is not). *)
Theorem calls_isolated_by_key s pc q sv cfg now :
  store_wf s = true ->
  key_eqb (config_id q, q) (config_id pc, pc) = false ->
  get_status (snd (enable_apis (Some s) pc sv cfg now)) q = get_status (Some s) q /\
  get_status (snd (disable_apis (Some s) pc sv now)) q = get_status (Some s) q.
Proof.
  intros Hwf Hne. split.
  - unfold enable_apis.
    destruct (upsert_item s (build_config pc sv cfg now)) as [s'|] eqn:Hu; simpl;
      [|reflexivity].
    destruct (upsert_item_at _ _ _ _ Hu (build_config_key pc sv cfg now)) as [_ Hoth].
    apply get_status_congr; [|exact (Hoth _ Hne)].
    unfold upsert_item in Hu. destruct (healthy s); [|discriminate].
    destruct (doc_key _); [|discriminate]. now injection Hu as <-.
  - destruct (disable_apis (Some s) pc sv now) as [r c'] eqn:Hd.
    destruct (disable_apis_frame s pc sv now r c' Hwf Hd) as (s' & -> & Hh & Hoth).
    simpl. apply get_status_congr; [exact Hh | exact (Hoth _ Hne)].
Qed.

Lemma calls_isolated_by_key_witness :
  key_eqb (config_id "terp", "terp") (config_id "TERP", "TERP") = false /\
  get_status (snd (enable_apis (Some (mkStore [] true)) "TERP" ["analytics"] [] "t1")) "terp"
    = get_status (Some (mkStore [] true)) "terp" /\
  get_status (snd (disable_apis (Some (mkStore [] true)) "TERP" ["analytics"] "t1")) "terp"
    = get_status (Some (mkStore [] true)) "terp".
Proof.
  split; [reflexivity|].
  apply calls_isolated_by_key; reflexivity.
Defined.



(** On a working store built by the manager, [disable_apis] fails exactly
    for a product that has no document: when the document exists, it
    succeeds and returns the stored list minus the named services. *)
Theorem disable_on_built_store s os pc sv now :
  store_inv s = true -> healthy s = true ->
  exists s1, run (Some s) os = Some s1 /\
    (doc_at s1 (config_id pc, pc) = None ->
       exists e, disable_apis (Some s1) pc sv now = (Err e, Some s1)) /\
    (forall d, doc_at s1 (config_id pc, pc) = Some d ->
       exists fs afs l s2,
         d = JObj fs /\ Dict.getitem fs "apis" = Ok (JObj afs) /\
         Dict.get afs "enabled" (JList []) = JList l /\
         disable_apis (Some s1) pc sv now =
           (Ok (JObj [("success", JBool true);
                      ("productCode", JStr pc);
                      ("disabledServices", JList (map JStr sv));
                      ("remainingServices",
                         JList (filter (fun x => negb (py_in_strs x sv)) l))]),
            Some s2)).
Proof.
  intros Hi Hh.
  destruct (run_inv os s Hi) as (s1 & Hrun & Hi1 & Hh1).
  exists s1. split; [exact Hrun|]. split.
  - intro Hn. unfold disable_apis, read_item. rewrite Hn.
    destruct (healthy s1); cbn [bind]; eauto.
  - intros d Hat. rewrite Hh in Hh1.
    unfold store_inv in Hi1. apply andb_prop in Hi1 as [Hwf Hsh].
    assert (Hd : shaped d = true).
    { unfold doc_at in Hat. revert Hat Hsh. generalize (docs s1).
      intro ds. induction ds as [|[k0 d0] ds IH]; simpl; [discriminate|].
      intros Hl Hf. apply andb_prop in Hf as [H0 Hf].
      destruct (key_eqb _ k0); [injection Hl as <-; exact H0 | exact (IH Hl Hf)]. }
    unfold shaped in Hd. destruct d as [| | | | |fs]; try discriminate.
    destruct (Dict.getitem fs "apis") as [[| | | | |afs]|] eqn:Ha; try discriminate.
    destruct (Dict.get afs "enabled" (JList [])) as [| | | |l|] eqn:He; try discriminate.
    destruct (disable_apis_ok s1 pc sv now fs afs l Hh1 Hwf Hat Ha He) as (s2 & Hd2 & _).
    exists fs, afs, l, s2. auto.
Qed.

Lemma disable_on_built_store_witness :
  store_inv (mkStore [] true) = true /\ healthy (mkStore [] true) = true /\
  exists s1, run (Some (mkStore [] true)) [OpEnable "P" ["analytics"; "tags"] [] "t1"] = Some s1 /\
    (doc_at s1 (config_id "P", "P") = None ->
       exists e, disable_apis (Some s1) "P" ["tags"] "t2" = (Err e, Some s1)) /\
    (forall d, doc_at s1 (config_id "P", "P") = Some d ->
       exists fs afs l s2,
         d = JObj fs /\ Dict.getitem fs "apis" = Ok (JObj afs) /\
         Dict.get afs "enabled" (JList []) = JList l /\
         disable_apis (Some s1) "P" ["tags"] "t2" =
           (Ok (JObj [("success", JBool true);
                      ("productCode", JStr "P");
                      ("disabledServices", JList (map JStr ["tags"]));
                      ("remainingServices",
                         JList (filter (fun x => negb (py_in_strs x ["tags"])) l))]),
            Some s2)).
Proof.
  split; [reflexivity|]. split; [reflexivity|].
  apply disable_on_built_store; reflexivity.
Defined.

(** * The HTTP facade ([src/main.py]) and the analytics manager *)

(** [str.split(sep)] for a one-character separator: every occurrence splits,
    empty pieces are kept *)
Fixpoint py_split (sep : ascii) (s : string) : list string :=
  match s with
  | EmptyString => [EmptyString]
  | String c s' =>
      let r := py_split sep s' in
      if Ascii.eqb c sep then EmptyString :: r
      else match r with
           | h :: t => String c h :: t
           | [] => [String c EmptyString]
           end
  end.

(** [sep.join(l)] *)
Fixpoint py_join (sep : string) (l : list string) : string :=
  match l with
  | [] => EmptyString
  | [x] => x
  | x :: t => (x ++ sep ++ py_join sep t)%string
  end.

Module Http.

Record response : Type := mkResponse {
  status : nat;
  body : json
}.

(** [{"success": True, "data": ...}] *)
Definition ok_response (data : json) : response :=
  mkResponse 200 (JObj [("success", JBool true); ("data", data)]).

(** [HTTPException(status_code, detail)] as FastAPI renders it *)
Definition error_response (code : nat) (detail : string) : response :=
  mkResponse code (JObj [("detail", JStr detail)]).

(** FastAPI answers 422 when the required header is absent, before the
    handler runs; the validation body it sends is not modelled *)
Definition missing_header : response := mkResponse 422 JNull.

(** [verify_subscription_key]: [None] lets the request through *)
Definition verify_subscription_key (hdr : option string) : option response :=
  match hdr with
  | None => Some missing_header
  | Some k =>
      if String.eqb k "" then Some (error_response 401 "Missing subscription key")
      else None
  end.




End Http.

(** [AnalyticsManager] ([src/services/analytics.py]): which of its two
    clients [_initialize_clients] managed to build; a method either returns
    a dict ([inl]) or raises an exception with a message ([inr]) *)
Module Analytics.

Record manager : Type := mkManager {
  admin_client : bool;
  data_client : bool
}.

Definition outcome := (json + string)%type.

Definition list_properties (m : manager) : outcome :=
  if admin_client m then
    inl (JList [JObj [("propertyId", JStr "G-SAMPLE123");
                      ("name", JStr "Sample Property");
                      ("createTime", JStr "2026-01-01T00:00:00Z")]])
  else inr "Analytics client not initialized".

Definition get_property (m : manager) (property_id : string) : outcome :=
  if admin_client m then
    inl (JObj [("propertyId", JStr property_id);
               ("name", JStr "Property Name");
               ("status", JStr "active")])
  else inr "Analytics client not initialized".

(** [send_event] checks no client *)
Definition send_event (m : manager) (property_id event_name : string)
    (params : list (string * json)) : outcome :=
  inl (JObj [("success", JBool true);
             ("propertyId", JStr property_id);
             ("eventName", JStr event_name);
             ("timestamp", JStr "2026-02-03T00:00:00Z")]).

Definition run_report (m : manager) (property_id : string)
    (dimensions metrics : list string) (date_range : list (string * json)) : outcome :=
  if data_client m then
    inl (JObj [("propertyId", JStr property_id);
               ("dateRange", JObj date_range);
               ("dimensions", JList (map JStr dimensions));
               ("metrics", JList (map JStr metrics));
               ("rows", JList [])])
  else inr "Analytics Data client not initialized".

(** The endpoints' common wrapper: success as [{"success": True, "data"}],
    an exception as a 500 carrying its message *)
Definition respond (hdr : option string) (o : outcome) : Http.response :=
  match Http.verify_subscription_key hdr with
  | Some resp => resp
  | None =>
      match o with
      | inl d => Http.ok_response d
      | inr msg => Http.error_response 500 msg
      end
  end.

(** [if x] on an optional query string: [None] and [""] are falsy *)
Definition truthy (x : option string) : option string :=
  match x with
  | Some s => if String.eqb s "" then None else Some s
  | None => None
  end.

(** [GET /analytics/reports]: the list parsing of lines 181-182 *)
Definition report_dimensions (dimensions : option string) : list string :=
  match truthy dimensions with
  | Some d => py_split "," d
  | None => []
  end.

Definition report_metrics (metrics : option string) : list string :=
  match truthy metrics with
  | Some m => py_split "," m
  | None => ["activeUsers"]
  end.

Definition run_analytics_report (m : manager) (hdr : option string)
    (property_id start_date end_date : string) (dimensions metrics : option string)
  : Http.response :=
  respond hdr (run_report m property_id (report_dimensions dimensions)
                 (report_metrics metrics)
                 [("startDate", JStr start_date); ("endDate", JStr end_date)]).

Definition list_analytics_properties (m : manager) (hdr : option string) : Http.response :=
  respond hdr (list_properties m).

Definition get_analytics_property (m : manager) (hdr : option string) (pid : string)
  : Http.response :=
  respond hdr (get_property m pid).

Definition send_analytics_event (m : manager) (hdr : option string)
    (pid ev : string) (params : list (string * json)) : Http.response :=
  respond hdr (send_event m pid ev params).

End Analytics.

(** * The command-line tool ([src/google-cli.py]) *)

Module Cli.

(** [s.startswith(p)] *)
Fixpoint startswith (s p : string) : bool :=
  match p, s with
  | EmptyString, _ => true
  | String c p', String d s' => Ascii.eqb c d && startswith s' p'
  | String _ _, EmptyString => false
  end.

(** [if not name.startswith(p): name = f"{p}{name}"], used with
    ["properties/"] by every property command and with ["accounts/"] by
    [cmd_create_property] *)
Definition ensure_prefix (p name : string) : string :=
  if startswith name p then name else (p ++ name)%string.

Definition property_name (property_id : string) : string :=
  ensure_prefix "properties/" property_id.

Definition account_name (account_id : string) : string :=
  ensure_prefix "accounts/" account_id.

(** [str.isspace()] on one ASCII character: tab, newline, vertical tab,
    form feed, carriage return, the separators 0x1c-0x1f and space *)
Definition is_space (c : ascii) : bool :=
  let n := nat_of_ascii c in
  (Nat.leb 9 n && Nat.leb n 13) || (Nat.leb 28 n && Nat.leb n 32).

Fixpoint lstrip_chars (l : list ascii) : list ascii :=
  match l with
  | [] => []
  | c :: l' => if is_space c then lstrip_chars l' else l
  end.

(** [str.strip()]: leading, then trailing whitespace removed *)
Definition strip_chars (l : list ascii) : list ascii :=
  rev (lstrip_chars (rev (lstrip_chars l))).

Definition py_strip (s : string) : string :=
  string_of_list_ascii (strip_chars (list_ascii_of_string s)).

(** [cmd_run_report], lines 259 and 265: the metric names sent *)
Definition metric_names (metrics : option string) : list string :=
  let m := match metrics with
           | Some s => if String.eqb s "" then "activeUsers,sessions" else s
           | None => "activeUsers,sessions"
           end in
  map py_strip (py_split "," m).

(** [cmd_run_report], lines 270-277: the dict built for one response row;
    [None] is the [IndexError] of a row with fewer values than headers *)
Fixpoint fill_entry (entry : list (string * json)) (headers values : list string)
  : option (list (string * json)) :=
  match headers with
  | [] => Some entry
  | h :: hs =>
      match values with
      | v :: vs => fill_entry (Dict.setitem entry h (JStr v)) hs vs
      | [] => None
      end
  end.

Definition row_entry (dim_headers met_headers dim_values met_values : list string)
  : option (list (string * json)) :=
  match fill_entry [] dim_headers dim_values with
  | Some e => fill_entry e met_headers met_values
  | None => None
  end.

End Cli.

(** ** Facts on [str.split], [str.strip] and dict building *)

Lemma py_split_nonempty c s : py_split c s <> [].
Proof.
  destruct s as [|x s]; simpl; [discriminate|].
  destruct (Ascii.eqb x c); [discriminate|].
  destruct (py_split c s); discriminate.
Qed.

Lemma py_join_cons_string sep x h t :
  py_join sep (String x h :: t) = String x (py_join sep (h :: t)).
Proof. destruct t; reflexivity. Qed.

Lemma py_join_split c s : py_join (String c EmptyString) (py_split c s) = s.
Proof.
  induction s as [|x s IH]; simpl; [reflexivity|].
  destruct (Ascii.eqb x c) eqn:E.
  - apply Ascii.eqb_eq in E. subst x.
    destruct (py_split c s) as [|h t] eqn:Hs; [now apply py_split_nonempty in Hs|].
    rewrite <- IH. reflexivity.
  - destruct (py_split c s) as [|h t] eqn:Hs; [now apply py_split_nonempty in Hs|].
    rewrite py_join_cons_string. now rewrite IH.
Qed.

Definition has_char (c : ascii) (p : string) : bool :=
  existsb (Ascii.eqb c) (list_ascii_of_string p).

Lemma py_split_no_sep c s : Forall (fun p => has_char c p = false) (py_split c s).
Proof.
  induction s as [|x s IH]; simpl.
  - repeat constructor.
  - destruct (Ascii.eqb x c) eqn:E.
    + constructor; [reflexivity | exact IH].
    + destruct (py_split c s) as [|h t] eqn:Hs; [now apply py_split_nonempty in Hs|].
      inversion IH as [|h' t' Hh Ht]; subst. constructor; [|exact Ht].
      unfold has_char in *. simpl. rewrite Hh, Ascii.eqb_sym, E. reflexivity.
Qed.

Lemma lstrip_head l :
  match Cli.lstrip_chars l with
  | c :: _ => Cli.is_space c = false
  | [] => True
  end.
Proof.
  induction l as [|c l IH]; simpl; [exact I|].
  destruct (Cli.is_space c) eqn:E; [exact IH | exact E].
Qed.

Lemma lstrip_suffix l : exists p, l = p ++ Cli.lstrip_chars l.
Proof.
  induction l as [|c l IH]; simpl; [now exists []|].
  destruct (Cli.is_space c).
  - destruct IH as [p Hp]. exists (c :: p). simpl. now rewrite <- Hp.
  - now exists [].
Qed.

Lemma lstrip_idem l : Cli.lstrip_chars (Cli.lstrip_chars l) = Cli.lstrip_chars l.
Proof.
  pose proof (lstrip_head l) as H.
  destruct (Cli.lstrip_chars l) as [|c t]; simpl; [reflexivity|]. now rewrite H.
Qed.

Lemma strip_chars_idem l : Cli.strip_chars (Cli.strip_chars l) = Cli.strip_chars l.
Proof.
  unfold Cli.strip_chars.
  set (a := Cli.lstrip_chars l). set (b := Cli.lstrip_chars (rev a)).
  assert (H1 : Cli.lstrip_chars (rev b) = rev b).
  { destruct (lstrip_suffix (rev a)) as [p Hp]. fold b in Hp.
    assert (Ha : a = rev b ++ rev p).
    { rewrite <- (rev_involutive a), Hp. apply rev_app_distr. }
    pose proof (lstrip_head l) as Hh. fold a in Hh.
    destruct (rev b) as [|c t]; [reflexivity|].
    rewrite Ha in Hh. simpl in Hh. simpl. now rewrite Hh. }
  rewrite H1, rev_involutive. unfold b. now rewrite lstrip_idem.
Qed.

Lemma setitem_fresh d k v :
  ~ In k (map fst d) -> Dict.setitem d k v = d ++ [(k, v)].
Proof.
  induction d as [|[k' v'] d IH]; simpl; [reflexivity|].
  intro Hn. rewrite eqb_false_neq by (intro E; apply Hn; left; congruence).
  rewrite IH by tauto. reflexivity.
Qed.

Lemma fill_entry_ok hs : forall vs e,
  NoDup hs -> (forall h, In h hs -> ~ In h (map fst e)) -> length vs = length hs ->
  Cli.fill_entry e hs vs = Some (e ++ combine hs (map JStr vs)).
Proof.
  induction hs as [|h hs IH]; intros vs e Hnd Hfr Hlen; simpl.
  - now rewrite app_nil_r.
  - destruct vs as [|v vs]; [discriminate|]. simpl in Hlen.
    inversion Hnd as [|h' hs' Hh Hnd']; subst.
    rewrite setitem_fresh by (apply Hfr; left; reflexivity).
    rewrite IH; [| exact Hnd' | | congruence].
    + simpl. now rewrite <- app_assoc.
    + intros x Hx. rewrite map_app. simpl. intro Hin.
      apply in_app_or in Hin as [Hin | [Hin | []]].
      * exact (Hfr x (or_intror Hx) Hin).
      * subst. exact (Hh Hx).
Qed.

Lemma fill_entry_short hs : forall vs e,
  length vs < length hs -> Cli.fill_entry e hs vs = None.
Proof.
  induction hs as [|h hs IH]; intros vs e Hl; simpl in *.
  - inversion Hl.
  - destruct vs as [|v vs]; [reflexivity|]. apply IH. simpl in Hl.
    apply PeanoNat.Nat.succ_lt_mono. exact Hl.
Qed.

Lemma fill_entry_some hs : forall vs e,
  length hs <= length vs -> exists e', Cli.fill_entry e hs vs = Some e'.
Proof.
  induction hs as [|h hs IH]; intros vs e Hl; simpl in *; [eauto|].
  destruct vs as [|v vs]; simpl in Hl; [inversion Hl|].
  apply IH. apply le_S_n. exact Hl.
Qed.

Lemma map_fst_combine {A B} (a : list A) : forall (b : list B),
  length b = length a -> map fst (combine a b) = a.
Proof.
  induction a as [|x a IH]; intros [|y b] H; simpl in *; try discriminate; [reflexivity|].
  f_equal. apply IH. congruence.
Qed.

Lemma NoDup_app_disjoint {A} (l1 : list A) : forall l2 x,
  NoDup (l1 ++ l2) -> In x l1 -> ~ In x l2.
Proof.
  induction l1 as [|y l1 IH]; intros l2 x Hnd Hx; simpl in *; [contradiction|].
  inversion Hnd as [|y' l' Hy Hnd']; subst.
  destruct Hx as [<- | Hx].
  - intro Hin. apply Hy. apply in_or_app. now right.
  - exact (IH l2 x Hnd' Hx).
Qed.

Lemma startswith_app p r : Cli.startswith (p ++ r) p = true.
Proof.
  induction p as [|c p IH]; simpl; [now destruct r|].
  now rewrite Ascii.eqb_refl, IH.
Qed.

Lemma py_strip_idem s : Cli.py_strip (Cli.py_strip s) = Cli.py_strip s.
Proof.
  unfold Cli.py_strip. now rewrite list_ascii_of_string_of_list_ascii, strip_chars_idem.
Qed.

Lemma verify_key_pass k : k <> EmptyString -> Http.verify_subscription_key (Some k) = None.
Proof. intro Hk. simpl. now rewrite eqb_false_neq. Qed.

Import Http Analytics Cli.

(** ** The HTTP endpoints ([src/main.py]) *)




(** The analytics endpoints with a non-empty key: the property endpoints
    answer 200 exactly when the Admin client was built and otherwise 500
    "Analytics client not initialized"; the report endpoint answers 200
    exactly when the Data client was built and otherwise 500 "Analytics
    Data client not initialized"; the event endpoint answers 200 whatever
    clients exist. *)
Theorem analytics_endpoints_availability m k pid sd ed dims mets ev params :
  k <> EmptyString ->
  status (list_analytics_properties m (Some k)) = (if admin_client m then 200 else 500) /\
  status (get_analytics_property m (Some k) pid) = (if admin_client m then 200 else 500) /\
  (admin_client m = false ->
   list_analytics_properties m (Some k) = error_response 500 "Analytics client not initialized" /\
   get_analytics_property m (Some k) pid = error_response 500 "Analytics client not initialized") /\
  status (run_analytics_report m (Some k) pid sd ed dims mets) =
    (if data_client m then 200 else 500) /\
  (data_client m = false ->
   run_analytics_report m (Some k) pid sd ed dims mets =
     error_response 500 "Analytics Data client not initialized") /\
  status (send_analytics_event m (Some k) pid ev params) = 200.
Proof.
  intro Hk.
  unfold list_analytics_properties, get_analytics_property, run_analytics_report,
    send_analytics_event, respond.
  rewrite (verify_key_pass k Hk).
  unfold list_properties, get_property, run_report, send_event.
  destruct (admin_client m), (data_client m); repeat split; discriminate.
Qed.

Lemma analytics_endpoints_availability_witness :
  "key-1" <> EmptyString /\
  status (list_analytics_properties (mkManager false true) (Some "key-1")) =
    (if admin_client (mkManager false true) then 200 else 500) /\
  status (get_analytics_property (mkManager false true) (Some "key-1") "123") =
    (if admin_client (mkManager false true) then 200 else 500) /\
  (admin_client (mkManager false true) = false ->
   list_analytics_properties (mkManager false true) (Some "key-1") =
     error_response 500 "Analytics client not initialized" /\
   get_analytics_property (mkManager false true) (Some "key-1") "123" =
     error_response 500 "Analytics client not initialized") /\
  status (run_analytics_report (mkManager false true) (Some "key-1") "123"
            "7daysAgo" "today" None None) =
    (if data_client (mkManager false true) then 200 else 500) /\
  (data_client (mkManager false true) = false ->
   run_analytics_report (mkManager false true) (Some "key-1") "123"
     "7daysAgo" "today" None None =
     error_response 500 "Analytics Data client not initialized") /\
  status (send_analytics_event (mkManager false true) (Some "key-1") "123" "click" []) = 200.
Proof.
  split; [discriminate|].
  apply analytics_endpoints_availability. discriminate.
Defined.

(** [GET /analytics/reports] with a non-empty key and a Data client answers
    200 with the report, which echoes the property id and the date range and
    lists the parsed dimensions [D] and metrics [M]: absent or empty query
    strings give [D = []] and [M = ["activeUsers"]]; a given dimensions
    string is cut at its commas into pieces without commas that join back
    to it, and so is a non-empty metrics string; the rows are empty. *)
Theorem report_endpoint_parsing m k pid sd ed dims mets :
  k <> EmptyString -> data_client m = true ->
  exists D M,
    run_analytics_report m (Some k) pid sd ed dims mets =
      ok_response (JObj [("propertyId", JStr pid);
                         ("dateRange", JObj [("startDate", JStr sd); ("endDate", JStr ed)]);
                         ("dimensions", JList (map JStr D));
                         ("metrics", JList (map JStr M));
                         ("rows", JList [])]) /\
    (forall d, dims = Some d -> py_join "," D = d) /\
    (dims = None -> D = []) /\
    Forall (fun p => has_char "," p = false) D /\
    (mets = None \/ mets = Some "" -> M = ["activeUsers"]) /\
    (forall x, mets = Some x -> x <> EmptyString ->
       py_join "," M = x /\ Forall (fun p => has_char "," p = false) M).
Proof.
  intros Hk Hd.
  exists (report_dimensions dims), (report_metrics mets).
  split.
  { unfold run_analytics_report, respond, run_report.
    now rewrite (verify_key_pass k Hk), Hd. }
  unfold report_dimensions, report_metrics, truthy.
  split; [|split; [|split; [|split]]].
  - intros d ->. destruct (String.eqb d "") eqn:E.
    + apply String.eqb_eq in E. now subst.
    + apply py_join_split.
  - intros ->. reflexivity.
  - destruct dims as [d|]; [|constructor].
    destruct (String.eqb d ""); [constructor | apply py_split_no_sep].
  - intros [-> | ->]; reflexivity.
  - intros y -> Hy. rewrite (eqb_false_neq y "" Hy).
    split; [apply py_join_split | apply py_split_no_sep].
Qed.

Lemma report_endpoint_parsing_witness :
  "key-1" <> EmptyString /\ data_client (mkManager false true) = true /\
  exists D M,
    run_analytics_report (mkManager false true) (Some "key-1") "123" "7daysAgo" "today"
      (Some "country,city") (Some "sessions") =
      ok_response (JObj [("propertyId", JStr "123");
                         ("dateRange", JObj [("startDate", JStr "7daysAgo");
                                             ("endDate", JStr "today")]);
                         ("dimensions", JList (map JStr D));
                         ("metrics", JList (map JStr M));
                         ("rows", JList [])]) /\
    (forall d, Some "country,city" = Some d -> py_join "," D = d) /\
    (@Some string "country,city" = None -> D = []) /\
    Forall (fun p => has_char "," p = false) D /\
    (@Some string "sessions" = None \/ Some "sessions" = Some "" -> M = ["activeUsers"]) /\
    (forall x, Some "sessions" = Some x -> x <> EmptyString ->
       py_join "," M = x /\ Forall (fun p => has_char "," p = false) M).
Proof.
  split; [discriminate|]. split; [reflexivity|].
  apply report_endpoint_parsing; [discriminate | reflexivity].
Defined.

(** ** The command-line tool ([src/google-cli.py]) *)

(** The resource-name prefixing of the CLI commands: the name sent always
    starts with the prefix, a name that already has it is sent unchanged,
    and prefixing twice is prefixing once (so ["properties/123"] and
    ["123"] name the same property). *)
Theorem ensure_prefix_props p name r :
  startswith (ensure_prefix p name) p = true /\
  ensure_prefix p (p ++ r) = (p ++ r)%string /\
  ensure_prefix p (ensure_prefix p name) = ensure_prefix p name /\
  property_name (property_name name) = property_name name /\
  account_name (account_name name) = account_name name.
Proof.
  assert (Hs : forall q n, startswith (ensure_prefix q n) q = true).
  { intros q n. unfold ensure_prefix. destruct (startswith n q) eqn:E;
      [exact E | apply startswith_app]. }
  assert (Hi : forall q n, ensure_prefix q (ensure_prefix q n) = ensure_prefix q n).
  { intros q n. unfold ensure_prefix at 1. now rewrite Hs. }
  split; [apply Hs|]. split.
  - unfold ensure_prefix. now rewrite startswith_app.
  - split; [apply Hi|]. split; apply Hi.
Qed.

(** [cmd_run_report] sends metric names without surrounding whitespace:
    every name is already stripped; with no [--metrics] (or an empty one)
    it sends ["activeUsers"] and ["sessions"]. *)
Theorem metric_names_stripped metrics :
  Forall (fun x => py_strip x = x) (metric_names metrics) /\
  metric_names None = ["activeUsers"; "sessions"] /\
  metric_names (Some "") = ["activeUsers"; "sessions"].
Proof.
  split; [|split; reflexivity].
  unfold metric_names. apply Forall_forall. intros x Hx.
  apply in_map_iff in Hx as (y & <- & _). apply py_strip_idem.
Qed.

(** The dict built by [cmd_run_report] for a row whose headers are all
    distinct and whose value lists match its header lists: its entries are
    the dimension headers paired with the dimension values, then the
    metric headers paired with the metric values, in order. *)
Theorem row_entry_complete dh mh dv mv :
  NoDup (dh ++ mh) -> length dv = length dh -> length mv = length mh ->
  row_entry dh mh dv mv = Some (combine dh (map JStr dv) ++ combine mh (map JStr mv)).
Proof.
  intros Hnd Hd Hm. unfold row_entry.
  rewrite (fill_entry_ok dh dv []); [| eapply NoDup_app_remove_r; exact Hnd
                                      | intros h _ []; fail | exact Hd].
  rewrite (fill_entry_ok mh mv); [reflexivity | eapply NoDup_app_remove_l; exact Hnd | | exact Hm].
  intros h Hh Hin. simpl in Hin.
  rewrite map_fst_combine in Hin by (rewrite length_map; congruence).
  exact (NoDup_app_disjoint dh mh h Hnd Hin Hh).
Qed.

Lemma row_entry_complete_witness :
  NoDup (["country"] ++ ["activeUsers"; "sessions"]) /\
  length ["France"] = length ["country"] /\
  length ["12"; "15"] = length ["activeUsers"; "sessions"] /\
  row_entry ["country"] ["activeUsers"; "sessions"] ["France"] ["12"; "15"] =
    Some (combine ["country"] (map JStr ["France"]) ++
          combine ["activeUsers"; "sessions"] (map JStr ["12"; "15"])).
Proof.
  split; [|split; [reflexivity | split; [reflexivity|]]].
  - repeat constructor; simpl; intuition discriminate.
  - apply row_entry_complete; [repeat constructor; simpl; intuition discriminate
                              | reflexivity | reflexivity].
Defined.

(** A row with fewer dimension values than dimension headers, or with
    enough of them but fewer metric values than metric headers, makes
    [cmd_run_report] fail with an [IndexError] instead of producing a dict. *)
Theorem row_entry_short dh mh dv mv :
  length dv < length dh \/ (length dh <= length dv /\ length mv < length mh) ->
  row_entry dh mh dv mv = None.
Proof.
  unfold row_entry. intros [H | [H1 H2]].
  - now rewrite fill_entry_short.
  - destruct (fill_entry_some dh dv [] H1) as (e & ->).
    now apply fill_entry_short.
Qed.

Lemma row_entry_short_witness :
  (length ["France"] < length ["country"] \/
   (length ["country"] <= length ["France"] /\
    length ["12"] < length ["activeUsers"; "sessions"])) /\
  row_entry ["country"] ["activeUsers"; "sessions"] ["France"] ["12"] = None.
Proof.
  split; [right; simpl; split; repeat constructor|].
  apply row_entry_short. right. simpl. split; repeat constructor.
Defined.
